(** * DyNetx edge lists: [dynetx/readwrite/edgelist.py]

    A shallow embedding of the interaction-list and snapshot-list readers
    and writers of DyNetx, and the properties of its specification checked
    against it.

    The module is Python 2 code (it calls [xrange]); the embedding follows
    Python 2 semantics where the two major versions differ (ordering of
    values of different types never raises).

    Strings are ASCII; white space is the six characters that [str.strip]
    and [str.split] treat as such on byte strings (tab, line feed, vertical
    tab, form feed, carriage return, space).  A file is the list of its
    lines, each with its terminator; decoding and encoding are the
    identity.

    The first part holds the embedding and the vocabulary of the
    statements, the second part the properties. *)

From stdpp Require Import gmap strings list pretty sorting.
From Stdlib Require Import ZArith Ascii Lia.

Local Open Scope Z_scope.

(** * The embedding *)

(** ** Python values *)

(** The hashable atoms that travel through the readers: tokens are strings,
    converters may turn them into integers, a missing optional is [None]. *)
Inductive value :=
| VNone
| VInt (z : Z)
| VStr (s : string).

Global Instance value_eq_dec : EqDecision value.
Proof. solve_decision. Defined.

Definition value_to_sum (v : value) : unit + (Z + string) :=
  match v with
  | VNone => inl tt
  | VInt z => inr (inl z)
  | VStr s => inr (inr s)
  end.

Definition value_of_sum (x : unit + (Z + string)) : value :=
  match x with
  | inl _ => VNone
  | inr (inl z) => VInt z
  | inr (inr s) => VStr s
  end.

Global Instance value_countable : Countable value.
Proof.
  apply (inj_countable' value_to_sum value_of_sum).
  intros []; reflexivity.
Defined.

(** Values that are printed but never used as keys: a field of an output
    line is an atom or a list of atoms (a stored [[start, stop]] entry). *)
Inductive pyval :=
| PAtom (v : value)
| PList (l : list value).

(** The exceptions the module can let escape. *)
Inductive exn :=
| TypeError (msg : string)
| ValueError (msg : string)
| KeyError (k : value)
| IndexError (msg : string).

Global Instance exn_eq_dec : EqDecision exn.
Proof. solve_decision. Defined.

(** [a < b] on atoms, as CPython 2 orders them: [None] is below everything,
    numbers are below strings, strings compare lexicographically. *)
Definition py_lt (a b : value) : bool :=
  match a, b with
  | VNone, VNone => false
  | VNone, _ => true
  | VInt _, VNone => false
  | VInt x, VInt y => x <? y
  | VInt _, VStr _ => true
  | VStr _, VNone => false
  | VStr _, VInt _ => false
  | VStr x, VStr y => String.ltb x y
  end.

(** [range(a, b)] and [xrange(a, b)]: the integers of [[a, b)], or a
    [TypeError] when an endpoint is not an integer. *)
Definition py_range (a b : value) : exn + list value :=
  match a, b with
  | VInt x, VInt y => inr (VInt <$> seqZ x (y - x))
  | _, _ => inl (TypeError "range() integer argument expected")
  end.

(** [str(x)], as the [%s] conversion of an error message applies it. *)
Definition py_str (v : value) : string :=
  match v with
  | VNone => "None"
  | VInt z => pretty z
  | VStr s => s
  end.

(** ** String methods *)

Definition is_space : ascii -> bool := Ascii.is_space.

Fixpoint lstrip (s : string) : string :=
  match s with
  | String c s' => if is_space c then lstrip s' else s
  | EmptyString => EmptyString
  end.

(** [rstrip] keeps a character when it is not a space or when something that
    is kept follows it. *)
Fixpoint rstrip (s : string) : string :=
  match s with
  | EmptyString => EmptyString
  | String c s' =>
      match rstrip s' with
      | EmptyString => if is_space c then EmptyString else String c EmptyString
      | r => String c r
      end
  end.

Definition strip (s : string) : string := rstrip (lstrip s).

(** [s.find(sub)]: the first index at which [sub] occurs in [s], or [-1]. *)
Fixpoint find_from (i : nat) (s sub : string) : Z :=
  if String.prefix sub s then Z.of_nat i
  else match s with
       | EmptyString => -1
       | String _ s' => find_from (S i) s' sub
       end.

Definition find (s sub : string) : Z := find_from 0 s sub.

(** [s[:p]] for [p >= 0]. *)
Fixpoint slice_to (p : nat) (s : string) : string :=
  match p, s with
  | S p', String c s' => String c (slice_to p' s')
  | _, _ => EmptyString
  end.

(** [s.split(sep)] for a non-empty separator: [skip] counts the characters
    of a matched separator that are still to be passed over, [cur] holds the
    current field in reverse. *)
Fixpoint split_sep_go (sep : string) (skip : nat) (cur : string) (s : string)
  : list string :=
  match s with
  | EmptyString => [String.rev cur]
  | String c s' =>
      match skip with
      | S k => split_sep_go sep k cur s'
      | O =>
          if String.prefix sep s
          then String.rev cur :: split_sep_go sep (String.length sep - 1) EmptyString s'
          else split_sep_go sep O (String c cur) s'
      end
  end.

(** [s.split(delimiter)]: runs of white space separate the fields when the
    delimiter is [None]; an empty delimiter is a [ValueError]. *)
Definition split (delimiter : option string) (s : string) : exn + list string :=
  match delimiter with
  | None => inr (String.words s)
  | Some EmptyString => inl (ValueError "empty separator")
  | Some sep => inr (split_sep_go sep O EmptyString s)
  end.

(** [delimiter.join(fields)]. *)
Fixpoint join (delimiter : string) (fields : list string) : string :=
  match fields with
  | [] => EmptyString
  | [f] => f
  | f :: rest => f +:+ delimiter +:+ join delimiter rest
  end.

(** [xs[-1]] and [xs[-2]]. *)
Definition index_last {A} (xs : list A) : exn + A :=
  match last xs with
  | Some x => inr x
  | None => inl (IndexError "list index out of range")
  end.

Definition index_last2 {A} (xs : list A) : exn + A :=
  match rev xs with
  | _ :: x :: _ => inr x
  | _ => inl (IndexError "list index out of range")
  end.

(** The line terminator. *)
Definition nl : string := String "010"%char EmptyString.

(** ** Converters and the index of timestamps *)

(** A [nodetype] or [timestamptype] argument: a callable, with the text that
    [%s] prints for it; the call returns a value or raises. *)
Record converter := {
  conv_repr : string;
  conv : value -> exn + value
}.

(** [%s] of an optional converter ([None] prints as [None]). *)
Definition repr_converter (c : option converter) : string :=
  match c with
  | Some f => conv_repr f
  | None => "None"
  end.

(** [int(x)] on the atoms: a string of decimal digits with an optional sign,
    surrounded by optional white space. *)
Fixpoint digits_go (acc : Z) (s : string) : option Z :=
  match s with
  | EmptyString => Some acc
  | String c s' =>
      match Ascii.is_nat c with
      | Some d => digits_go (10 * acc + Z.of_nat d) s'
      | None => None
      end
  end.

Definition digits (s : string) : option Z :=
  match s with
  | EmptyString => None
  | _ => digits_go 0 s
  end.

Definition int_of_string (s : string) : option Z :=
  match strip s with
  | String "-" s' => Z.opp <$> digits s'
  | String "+" s' => digits s'
  | s' => digits s'
  end.

Definition py_int : converter := {|
  conv_repr := "<type 'int'>";
  conv v := match v with
            | VInt z => inr (VInt z)
            | VStr s => match int_of_string s with
                        | Some z => inr (VInt z)
                        | None => inl (ValueError "invalid literal for int() with base 10")
                        end
            | VNone => inl (TypeError "int() argument must be a string or a number, not 'NoneType'")
            end
|}.

Definition py_str_type : converter := {|
  conv_repr := "<type 'str'>";
  conv v := inr (VStr (py_str v))
|}.

(** [keys[t]]. *)
Definition getitem (keys : gmap value value) (t : value) : exn + value :=
  match keys !! t with
  | Some i => inr i
  | None => inl (KeyError t)
  end.

(** Calling the [timestamptype] argument; [None] is not callable. *)
Definition call (f : option converter) (x : value) : exn + value :=
  match f with
  | Some c => conv c x
  | None => inl (TypeError "'NoneType' object is not callable")
  end.

(** ** A state and exception monad

    The graph being populated is the state; a raised exception ends the
    computation and leaves the state as it was when it was raised. *)

Definition M (S A : Type) : Type := S -> S * (exn + A).

Definition ret {S A} (a : A) : M S A := fun s => (s, inr a).

Definition raise {S A} (e : exn) : M S A := fun s => (s, inl e).

Definition bind {S A B} (m : M S A) (k : A -> M S B) : M S B :=
  fun s => match m s with
           | (s', inr a) => k a s'
           | (s', inl e) => (s', inl e)
           end.

Definition lift {S A} (r : exn + A) : M S A :=
  match r with
  | inr a => ret a
  | inl e => raise e
  end.

Definition get {S} : M S S := fun s => (s, inr s).

Definition modify {S} (f : S -> S) : M S unit := fun s => (f s, inr tt).

Declare Scope py_scope.
Delimit Scope py_scope with py.
Notation "x <- m ;; k" := (bind m (fun x => k))
  (at level 100, m at next level, right associativity) : py_scope.
Notation "m ;;; k" := (bind m (fun _ => k))
  (at level 100, right associativity) : py_scope.
Local Open Scope py_scope.

(** [for x in xs: body x]. *)
Fixpoint for_each {S A} (body : A -> M S unit) (xs : list A) : M S unit :=
  match xs with
  | [] => ret tt
  | x :: xs' => body x ;;; for_each body xs'
  end.

(** [continue] inside a loop body. *)
Definition continue {S} : M S unit := ret tt.

(** ** The graph collaborator

    [DynGraph] lives outside this module.  The readers and writers reach it
    through the operations below only, so they are stated over any type
    that offers them. *)

(** The attribute dictionary [d] of a stored edge, as [G.interactions()]
    yields it: the timeline under the key ['t'] when it is there (a list of
    [[start, stop]] entries) and the other attributes in iteration order. *)
Record attrs := {
  attr_t : option (list (list value));
  attr_other : list (string * pyval)
}.

Class DynGraphOps (G : Type) := {
  (** [DynGraph()] *)
  DynGraph : G;
  (** [G.clear()] *)
  clear : G -> G;
  (** [G.add_interaction(u, v, t=t, e=e)] *)
  add_interaction : value -> value -> value -> value -> G -> G;
  (** [G.edge[u][v]['t']] *)
  edge_t : G -> value -> value -> exn + list value;
  (** [G.stream_interactions()] *)
  stream_interactions : G -> list (list value);
  (** [G.interactions()] *)
  interactions : G -> list (value * value * attrs)
}.

(** Objects live in a store and are passed by reference, so that the graph a
    caller hands over as [create_using] and the graph that is returned can be
    told to be the same object.  An object is a graph or something that has
    no [clear] method. *)
Definition loc := nat.

Inductive object (G : Type) :=
| OGraph (g : G)
| OOther (v : value).
Global Arguments OGraph {G} g.
Global Arguments OOther {G} v.

(** ** The readers *)

Section Readers.
Context {G : Type} `{!DynGraphOps G}.

(** Lines 93-100 and 190-197: the graph to populate is a new one, or the
    object given as [create_using] after [clear()]; whatever goes wrong
    with the latter is a [TypeError].  [populate] is the loop over the
    lines; the returned reference is that of the populated graph.  A new
    graph gets a reference that is not in use; a reference that is not in
    the store is treated like an object without [clear]. *)
Definition with_graph (create_using : option loc) (populate : M G unit)
  : M (gmap loc (object G)) loc :=
  fun h =>
    match create_using with
    | None =>
        let r := fresh (dom h) in
        let '(g, res) := populate DynGraph in
        (<[r := OGraph g]> h, match res with inl e => inl e | inr _ => inr r end)
    | Some r =>
        match h !! r with
        | Some (OGraph g0) =>
            let '(g, res) := populate (clear g0) in
            (<[r := OGraph g]> h, match res with inl e => inl e | inr _ => inr r end)
        | _ => (h, inl (TypeError "create_using input is not a DyNet graph type"))
        end
    end.

(** Lines 104-110 and 200-206: cut the comment, skip an empty rest
    ([None]), otherwise strip and split. *)
Definition fields (comments : string) (delimiter : option string) (line : string)
  : exn + option (list string) :=
  let p := find line comments in
  let line := if 0 <=? p then slice_to (Z.to_nat p) line else line in
  if (String.length line =? 0)%nat then inr None
  else match split delimiter (strip line) with
       | inr s => inr (Some s)
       | inl e => inl e
       end.

Definition nodes_error (u v : value) (nodetype : option converter) : exn :=
  TypeError ("Failed to convert nodes " +:+ py_str u +:+ "," +:+ py_str v
             +:+ " to type " +:+ repr_converter nodetype +:+ ".").

(** Lines 120-125 and 220-225.  [u] is reassigned before [v] is converted,
    so a failure on [v] prints the converted [u]. *)
Definition convert_nodes (nodetype : option converter) (u v : value)
  : exn + (value * value) :=
  match nodetype with
  | None => inr (u, v)
  | Some f =>
      match conv f u with
      | inl _ => inl (nodes_error u v nodetype)
      | inr u' =>
          match conv f v with
          | inl _ => inl (nodes_error u' v nodetype)
          | inr v' => inr (u', v')
          end
      end
  end.

(** Lines 127-131 and 227-231.  The message is formatted with [nodetype]. *)
Definition timestamp_error (s : value) (nodetype : option converter) : exn :=
  TypeError ("Failed to convert timestamp " +:+ py_str s
             +:+ " to type " +:+ repr_converter nodetype +:+ ".").

Definition convert_timestamp (nodetype timestamptype : option converter) (s : value)
  : exn + value :=
  match timestamptype with
  | None => inr s
  | Some f =>
      match conv f s with
      | inl _ => inl (timestamp_error s nodetype)
      | inr s' => inr s'
      end
  end.

(** Lines 133-136 and 141-144: one registration, through [keys] when an
    index is given. *)
Definition register (keys : option (gmap value value)) (u v t : value) : M G unit :=
  match keys with
  | Some k => i <- lift (getitem k t);; modify (add_interaction u v i VNone)
  | None => modify (add_interaction u v t VNone)
  end.

(** Lines 132-144: a record [(u, v, op, s)] after conversion. *)
Definition interaction_record (keys : option (gmap value value))
    (u v : value) (op : string) (s : value) : M G unit :=
  if decide (op = "+") then register keys u v s
  else
    g <- get;;
    timestamps <- lift (edge_t g u v);;
    match last timestamps with
    | Some start =>
        if py_lt start s then
          ts <- lift (py_range start s);;
          for_each (register keys u v) ts
        else ret tt
    | None => ret tt
    end.

(** Lines 104-144: the body of the loop of [parse_interactions]. *)
Definition interactions_line (comments : string) (delimiter : option string)
    (nodetype timestamptype : option converter) (keys : option (gmap value value))
    (line : string) : M G unit :=
  s <- lift (fields comments delimiter line);;
  match s with
  | Some [u; v; op; s] =>
      uv <- lift (convert_nodes nodetype (VStr u) (VStr v));;
      s <- lift (convert_timestamp nodetype timestamptype (VStr s));;
      interaction_record keys uv.1 uv.2 op s
  | _ => continue
  end.

Definition parse_interactions (lines : list string) (comments : string)
    (delimiter : option string) (create_using : option loc)
    (nodetype timestamptype : option converter) (keys : option (gmap value value))
  : M (gmap loc (object G)) loc :=
  with_graph create_using
    (for_each (interactions_line comments delimiter nodetype timestamptype keys) lines).

(** Lines 232-238: the registration of a snapshot record. *)
Definition snapshot_record (keys : option (gmap value value))
    (u v t e : value) : M G unit :=
  match keys with
  | Some k =>
      if decide (e = VNone) then
        i <- lift (getitem k t);; modify (add_interaction u v i e)
      else
        i <- lift (getitem k t);;
        j <- lift (getitem k e);;
        modify (add_interaction u v i j)
  | None => modify (add_interaction u v t e)
  end.

(** Lines 200-238: the body of the loop of [parse_snapshots].  Fewer than
    three fields are skipped; with three, [e] is [None]; otherwise the
    first four are taken. *)
Definition snapshots_line (comments : string) (delimiter : option string)
    (nodetype timestamptype : option converter) (keys : option (gmap value value))
    (line : string) : M G unit :=
  s <- lift (fields comments delimiter line);;
  match s with
  | Some (u :: v :: t :: rest) =>
      let e := match rest with
               | [] => VNone
               | e :: _ => VStr e
               end in
      uv <- lift (convert_nodes nodetype (VStr u) (VStr v));;
      t <- lift (convert_timestamp nodetype timestamptype (VStr t));;
      snapshot_record keys uv.1 uv.2 t e
  | _ => continue
  end.

Definition parse_snapshots (lines : list string) (comments : string)
    (delimiter : option string) (create_using : option loc)
    (nodetype timestamptype : option converter) (keys : option (gmap value value))
  : M (gmap loc (object G)) loc :=
  with_graph create_using
    (for_each (snapshots_line comments delimiter nodetype timestamptype keys) lines).

End Readers.

(** ** The index of timestamps *)

(** The order [sorted] uses on atoms. *)
Definition py_le (a b : value) : Prop := py_lt b a = false.

Global Instance py_le_dec : RelDecision py_le.
Proof. intros a b. unfold py_le. apply _. Defined.

(** Modelled from the spec: [clean_timeslot] of [dynetx.utils] is not part
    of this module.  Its contract is to sort the distinct timestamps in
    ascending order and to map each to its position, counted from 0. *)
Definition clean_timeslot (sind_list : list value) : gmap value value :=
  let tls := merge_sort py_le sind_list in
  list_to_map (zip tls ((fun i => VInt (Z.of_nat i)) <$> seq 0 (length tls))).

(** Lines 270-274: the body of the loop of [read_ids]; the state is the
    dictionary [ids].  The test of line 272 is on the length of the line. *)
Definition read_ids_line (delimiter : option string) (timestamptype : option converter)
    (line : string) : M (gmap value value) unit :=
  s <- lift (split delimiter (rstrip line));;
  x <- lift (index_last s);;
  k <- lift (call timestamptype (VStr x));;
  modify (insert k VNone);;;
  if (String.length line =? 4)%nat then
    y <- lift (index_last2 s);;
    if decide (y ∈ ["+"; "-"]) then ret tt
    else
      k' <- lift (call timestamptype (VStr y));;
      modify (insert k' VNone)
  else ret tt.

(** The dictionary [ids] at the end of the loop of [read_ids]. *)
Definition read_ids_candidates (path : list string) (delimiter : option string)
    (timestamptype : option converter) : gmap value value * (exn + unit) :=
  for_each (read_ids_line delimiter timestamptype) path ∅.

(** [read_ids]; the file at [path] is given by its lines. *)
Definition read_ids (path : list string) (delimiter : option string)
    (timestamptype : option converter) : exn + gmap value value :=
  match read_ids_candidates path delimiter timestamptype with
  | (ids, inr _) => inr (clean_timeslot (map_to_list ids).*1)
  | (_, inl e) => inl e
  end.

Section FileReaders.
Context {G : Type} `{!DynGraphOps G}.

(** Lines 83-89.  [path] is the open file, given by its lines; decoding
    is the identity on them. *)
Definition read_interactions (path : list string) (comments : string)
    (delimiter : option string) (create_using : option loc)
    (nodetype timestamptype : option converter) (keys : bool)
  : M (gmap loc (object G)) loc :=
  if keys then
    ids <- lift (read_ids path delimiter timestamptype);;
    parse_interactions path comments delimiter create_using nodetype timestamptype (Some ids)
  else
    parse_interactions path comments delimiter create_using nodetype timestamptype None.

(** Lines 257-263. *)
Definition read_snapshots (path : list string) (comments : string)
    (delimiter : option string) (create_using : option loc)
    (nodetype timestamptype : option converter) (keys : bool)
  : M (gmap loc (object G)) loc :=
  if keys then
    ids <- lift (read_ids path delimiter timestamptype);;
    parse_snapshots path comments delimiter create_using nodetype timestamptype (Some ids)
  else
    parse_snapshots path comments delimiter create_using nodetype timestamptype None.

End FileReaders.

(** ** The writers *)

Section Writers.
Context {G : Type} `{!DynGraphOps G}.

(** [make_str] of [dynetx.utils], the text of a value, is not part of this
    module; the writers are stated over any such function. *)
Variable make_str : pyval -> string.

(** Lines 41-43.  The generator is given by the list of lines it yields. *)
Definition generate_interactions (g : G) (delimiter : string) : list string :=
  (fun e => join delimiter (make_str <$> (PAtom <$> e))) <$> stream_interactions g.

(** Lines 63-65: what [write_interactions] writes, line by line. *)
Definition write_interactions (g : G) (delimiter : string) : list string :=
  (fun line => line +:+ nl) <$> generate_interactions g delimiter.

(** [t[i]] on a stored entry. *)
Definition getindex (t : list value) (i : nat) : exn + value :=
  match t !! i with
  | Some x => inr x
  | None => inl (IndexError "list index out of range")
  end.

(** Lines 154-163: the line of one entry [t] of the timeline of the edge
    [(u, v)].  The loop over [xrange(t[0], t[1])] rebinds [e] at each step
    and yields nothing. *)
Definition snapshot_entry (u v : value) (d : attrs) (t : list value)
  : exn + list pyval :=
  match getindex t 0 with
  | inl err => inl err
  | inr t0 =>
      let e := [PAtom u; PAtom v; PAtom t0] in
      match getindex t 1 with
      | inl err => inl err
      | inr t1 =>
          let after_loop :=
            if negb (bool_decide (t1 = VNone)) || negb (bool_decide (t0 = t1)) then
              match py_range t0 t1 with
              | inl err => inl err
              | inr steps => inr (foldl (fun _ s => [PAtom u; PAtom v; PList t]) e steps)
              end
            else inr e in
          match after_loop with
          | inl err => inl err
          | inr e => inr (e ++ (attr_other d).*2)
          end
      end
  end.

(** A generator that raises: the lines yielded before, and the exception
    if there was one. *)
Fixpoint yield_each {A} (body : A -> exn + string) (xs : list A)
  : list string * option exn :=
  match xs with
  | [] => ([], None)
  | x :: xs' =>
      match body x with
      | inl err => ([], Some err)
      | inr line => let '(rest, r) := yield_each body xs' in (line :: rest, r)
      end
  end.

(** Lines 150-163 for one edge. *)
Definition snapshot_edge (delimiter : string) (x : value * value * attrs)
  : list string * option exn :=
  let '(u, v, d) := x in
  match attr_t d with
  | None => ([], Some (TypeError "exceptions must be old-style classes or derived from BaseException, not NotImplementedType"))
  | Some ts =>
      yield_each
        (fun t => match snapshot_entry u v d t with
                  | inl err => inl err
                  | inr e => inr (join delimiter (make_str <$> e))
                  end) ts
  end.

Fixpoint generate_snapshots_from (delimiter : string) (xs : list (value * value * attrs))
  : list string * option exn :=
  match xs with
  | [] => ([], None)
  | x :: xs' =>
      match snapshot_edge delimiter x with
      | (lines, Some err) => (lines, Some err)
      | (lines, None) =>
          let '(rest, r) := generate_snapshots_from delimiter xs' in (lines ++ rest, r)
      end
  end.

(** Lines 148-163. *)
Definition generate_snapshots (g : G) (delimiter : string) : list string * option exn :=
  generate_snapshots_from delimiter (interactions g).

(** Lines 183-185: what [write_snapshots] writes before the generator
    raises, if it does. *)
Definition write_snapshots (g : G) (delimiter : string) : list string * option exn :=
  let '(lines, r) := generate_snapshots g delimiter in
  ((fun line => line +:+ nl) <$> lines, r).

End Writers.

(** ** A graph with per-edge timelines *)

(** Modelled from the spec: the class [DynGraph] is not part of this module.
    The spec describes what the readers and writers need of it: for each node
    pair an ordered sequence of activity entries, to which a registration
    [add_interaction(u, v, t, e)] appends one entry [(t, e)]; a query for the
    recorded start timestamps of a pair, which is empty when nothing was
    recorded for it; [clear()], which empties the graph; and the iteration
    over the stored interactions, one per recorded entry. *)
Record timeline_graph := { edge : gmap (value * value) (list (value * value)) }.

Definition timeline (g : timeline_graph) (u v : value) : list (value * value) :=
  default [] (edge g !! (u, v)).

(** Modelled from the spec: the operations of [DynGraph], on timelines.
    Pairs are kept as they are given, [(u, v)] apart from [(v, u)].  The
    stream of interactions has one record [(u, v, '+', t)] per recorded
    entry, edge by edge; [interactions()] gives each edge with its entries
    [[t, e]] under ['t'] and no other attribute. *)
Global Instance timeline_graph_ops : DynGraphOps timeline_graph := {|
  DynGraph := {| edge := ∅ |};
  clear _ := {| edge := ∅ |};
  add_interaction u v t e g :=
    {| edge := <[(u, v) := timeline g u v ++ [(t, e)]]> (edge g) |};
  edge_t g u v := inr (timeline g u v).*1;
  stream_interactions g :=
    '(uv, entries) ← map_to_list (edge g);
    (fun te => [uv.1; uv.2; VStr "+"; te.1]) <$> entries;
  interactions g :=
    (fun x => (x.1.1, x.1.2,
               {| attr_t := Some ((fun te => [te.1; te.2]) <$> x.2); attr_other := [] |}))
      <$> map_to_list (edge g)
|}.

(** The recorded start timestamps of a pair. *)
Definition starts (g : timeline_graph) (u v : value) : list value :=
  (timeline g u v).*1.

(** The graph a reader returned, looked up in the store. *)
Definition graph_at {G} (r : gmap loc (object G) * (exn + loc)) : option G :=
  match r with
  | (h, inr l) => match h !! l with
                  | Some (OGraph g) => Some g
                  | _ => None
                  end
  | _ => None
  end.

(** Modelled from the spec: [make_str] of [dynetx.utils] is not part of
    this module; it is the stringification helper of the writers.  An atom
    is printed as [str] prints it, a list as its elements between brackets,
    strings quoted. *)
Definition make_str (x : pyval) : string :=
  match x with
  | PAtom v => py_str v
  | PList l =>
      "[" +:+ join ", " ((fun v => match v with
                                   | VStr s => "'" +:+ s +:+ "'"
                                   | _ => py_str v
                                   end) <$> l) +:+ "]"
  end.

(** ** The vocabulary of the statements *)

(** The record [(u, v, op, s)] a line stands for, after conversion:
    [inr None] for a line that is skipped, [inl] for a line on which the
    parse raises before the record is handled. *)
Definition record_of (comments : string) (delimiter : option string)
    (nodetype timestamptype : option converter) (line : string)
  : exn + option (value * value * string * value) :=
  match fields comments delimiter line with
  | inl e => inl e
  | inr (Some [u; v; op; s]) =>
      match convert_nodes nodetype (VStr u) (VStr v) with
      | inl e => inl e
      | inr uv =>
          match convert_timestamp nodetype timestamptype (VStr s) with
          | inl e => inl e
          | inr s' => inr (Some (uv.1, uv.2, op, s'))
          end
      end
  | inr _ => inr None
  end.



(** The number of fields of a line after the comment is cut and the rest is
    split; a line with nothing left before the split counts no field. *)
Definition field_count (o : option (list string)) : nat :=
  match o with
  | Some s => length s
  | None => 0
  end.

(** The outcome of a loop, as the parser that ran it on the graph at [r]
    reports it. *)
Definition reported (r : loc) (res : exn + unit) : exn + loc :=
  match res with
  | inl e => inl e
  | inr _ => inr r
  end.


(** A field that survives the split on white space: not empty and free of
    white space. *)
Fixpoint no_space (s : string) : bool :=
  match s with
  | EmptyString => true
  | String c s' => negb (is_space c) && no_space s'
  end.




(** The records of the stream, handled one after the other. *)
Definition replay {G} `{!DynGraphOps G} (recs : list (list value)) : M G unit :=
  for_each (fun e => match e with
                     | [u; v; VStr op; t] => interaction_record None u v op t
                     | _ => ret tt
                     end) recs.

(** A store with a graph that already holds an edge, and an integer. *)
Definition sample_store : gmap loc (object timeline_graph) :=
  <[0%nat := OGraph (add_interaction (VInt 8) (VInt 9) (VInt 7) VNone DynGraph)]>
    (<[1%nat := OOther (VInt 5)]> ∅).

(** A graph with the one edge [(1, 2)], whose timeline holds the one entry
    [[0, 3]]. *)
Definition range_graph : timeline_graph :=
  add_interaction (VInt 1) (VInt 2) (VInt 0) (VInt 3) DynGraph.

(** A graph with two edges: [(1, 2)] active at 0, 1 and 2, and [(3, 4)]
    active at 5. *)
Definition sample_graph : timeline_graph :=
  add_interaction (VInt 3) (VInt 4) (VInt 5) VNone
    (add_interaction (VInt 1) (VInt 2) (VInt 2) VNone
       (add_interaction (VInt 1) (VInt 2) (VInt 1) VNone
          (add_interaction (VInt 1) (VInt 2) (VInt 0) VNone DynGraph))).

(** Whether the loop of [parse_interactions] goes past the count of the
    fields of a line: the line has four fields, or the split raises. *)
Definition kept_by_interactions (comments : string) (delimiter : option string)
    (line : string) : bool :=
  match fields comments delimiter line with
  | inr o => bool_decide (field_count o = 4%nat)
  | inl _ => true
  end.

(** The same for [parse_snapshots]: three fields or more. *)
Definition kept_by_snapshots (comments : string) (delimiter : option string)
    (line : string) : bool :=
  match fields comments delimiter line with
  | inr o => bool_decide (3 <= field_count o)%nat
  | inl _ => true
  end.

(** Line 271 of [read_ids] on one line: the last token, converted. *)
Definition last_candidate (delimiter : option string) (timestamptype : option converter)
    (line : string) : exn + value :=
  match split delimiter (rstrip line) with
  | inl e => inl e
  | inr s =>
      match index_last s with
      | inl e => inl e
      | inr x => call timestamptype (VStr x)
      end
  end.

(** Whether a character occurs in a string. *)
Fixpoint has_char (c : ascii) (s : string) : bool :=
  match s with
  | EmptyString => false
  | String a s' => bool_decide (a = c) || has_char c s'
  end.

(** The line [write_interactions] writes for a record with the delimiter
    [sep]. *)
Definition written_with (ms : pyval -> string) (sep : string) (e : list value) : string :=
  join sep (ms <$> (PAtom <$> e)) +:+ nl.

(** What reading back with the one-character delimiter [c] asks of a
    record [e], of [make_str] and of the converters: as [matching], with
    fields that hold neither white space nor the delimiter (they may be
    empty). *)
Definition matching_with (ms : pyval -> string) (comments : string) (c : ascii)
    (nodetype timestamptype : option converter) (e : list value) : Prop :=
  match e with
  | [u; v; VStr op; t] =>
      Forall (fun x => no_space (ms (PAtom x)) = true
                       /\ has_char c (ms (PAtom x)) = false) e
      /\ ms (PAtom (VStr op)) = op
      /\ convert_nodes nodetype (VStr (ms (PAtom u))) (VStr (ms (PAtom v))) = inr (u, v)
      /\ convert_timestamp nodetype timestamptype (VStr (ms (PAtom t))) = inr t
      /\ find (written_with ms (String c EmptyString) e) comments = -1
  | _ => False
  end.

(** A stored entry [[start, stop]] with integer ends whose stop is not
    after its start. *)
Definition point_entry (t : list value) : Prop :=
  exists a b, t = [VInt a; VInt b] /\ b <= a.

(** The fields of the line of such an entry: the nodes, the start and the
    other attributes of the edge. *)
Definition point_fields (u v : value) (d : attrs) (t : list value) : list pyval :=
  [PAtom u; PAtom v; PAtom (default VNone (t !! 0%nat))] ++ (attr_other d).*2.

(** * Properties *)

(** ** The string methods and the converters on examples *)

Example split_ws : split None (strip (" 1  2 + 0" +:+ nl)) = inr ["1"; "2"; "+"; "0"].
Proof. reflexivity. Qed.

Example split_comma : split (Some ",") "1,2,,0," = inr ["1"; "2"; ""; "0"; ""].
Proof. reflexivity. Qed.

Example split_long : split (Some "ab") "xabyabab" = inr ["x"; "y"; ""; ""].
Proof. reflexivity. Qed.

Example find_hash : find "1 2 # c" "#" = 4 /\ find "1 2" "#" = -1.
Proof. split; reflexivity. Qed.

Example join_sp : join " " ["1"; "2"; "+"; "0"] = "1 2 + 0".
Proof. reflexivity. Qed.

Example int_ok : conv py_int (VStr " -12 ") = inr (VInt (-12)).
Proof. reflexivity. Qed.

Example int_bad : conv py_int (VStr "x") = inl (ValueError "invalid literal for int() with base 10").
Proof. reflexivity. Qed.

(** ** The loop over the lines *)

(** Unfolds the operations of the monad, so that a computation shows the
    case analysis it stands for. *)
Ltac run_monad := unfold bind, lift, ret, raise, get, modify, continue.

Lemma for_each_app {S A} (body : A -> M S unit) (xs ys : list A) (s : S) :
  for_each body (xs ++ ys) s =
  match for_each body xs s with
  | (s', inr _) => for_each body ys s'
  | (s', inl e) => (s', inl e)
  end.
Proof.
  revert s. induction xs as [|x xs IH]; intros s; simpl.
  - reflexivity.
  - unfold bind. destruct (body x s) as [s' [e|[]]]; [reflexivity|apply IH].
Qed.

Lemma for_each_cons {S A} (body : A -> M S unit) (x : A) (xs : list A) (s : S) :
  for_each body (x :: xs) s =
  match body x s with
  | (s', inr _) => for_each body xs s'
  | (s', inl e) => (s', inl e)
  end.
Proof. simpl. unfold bind. destruct (body x s) as [s' [e|[]]]; reflexivity. Qed.


Section Records.
Context {G : Type} `{!DynGraphOps G}.

Lemma interactions_line_record comments delimiter nodetype timestamptype keys line (g : G) :
  interactions_line comments delimiter nodetype timestamptype keys line g =
  match record_of comments delimiter nodetype timestamptype line with
  | inl e => (g, inl e)
  | inr None => (g, inr tt)
  | inr (Some (u, v, op, s)) => interaction_record keys u v op s g
  end.
Proof.
  unfold interactions_line, record_of. run_monad.
  destruct (fields comments delimiter line) as [e|[s|]]; try reflexivity.
  destruct s as [|u [|v [|op [|s [|x rest]]]]]; try reflexivity.
  destruct (convert_nodes nodetype (VStr u) (VStr v)) as [e|uv]; try reflexivity.
  destruct (convert_timestamp nodetype timestamptype (VStr s)) as [e|s']; reflexivity.
Qed.


Lemma graph_at_parse_snapshots lines comments delimiter nodetype timestamptype keys
    (h : gmap loc (object G)) :
  graph_at (parse_snapshots lines comments delimiter None nodetype timestamptype keys h) =
  match for_each (snapshots_line comments delimiter nodetype timestamptype keys)
          lines DynGraph with
  | (g, inr _) => Some g
  | (_, inl _) => None
  end.
Proof.
  unfold parse_snapshots, with_graph, graph_at.
  destruct (for_each _ lines DynGraph) as [g [e|[]]]; [reflexivity|].
  by rewrite lookup_insert_eq.
Qed.

End Records.

(** ** Properties of the readers that hold for every graph implementation *)

Section ReaderProperties.
Context {G : Type} `{!DynGraphOps G}.

(** C3 (amended). A line whose number of fields is not 4 is skipped by
    [parse_interactions], and a line with fewer than 3 fields is skipped by
    [parse_snapshots]: the loop body raises nothing and leaves the graph as
    it was. *)
Theorem malformed_line_skipped comments delimiter nodetype timestamptype keys
    line o (g : G) :
  fields comments delimiter line = inr o ->
  (field_count o ≠ 4%nat ->
   interactions_line comments delimiter nodetype timestamptype keys line g = (g, inr tt))
  /\ ((field_count o < 3)%nat ->
      snapshots_line comments delimiter nodetype timestamptype keys line g = (g, inr tt)).
Proof.
  intros Hf. split; intros Hn.
  - unfold interactions_line. run_monad. rewrite Hf. simpl.
    destruct o as [s|]; [|reflexivity].
    destruct s as [|u [|v [|op [|s [|x rest]]]]]; try reflexivity.
    simpl in Hn. congruence.
  - unfold snapshots_line. run_monad. rewrite Hf. simpl.
    destruct o as [s|]; [|reflexivity].
    destruct s as [|u [|v [|t rest]]]; try reflexivity.
    simpl in Hn. lia.
Qed.

(** C7. When the object given as [create_using] has no [clear], both
    parsers raise the [TypeError] and the store is as it was, whatever the
    lines are.  When it is a graph, the loop runs on that graph after
    [clear()], the graph the loop leaves is stored under the same reference,
    and that reference is what a parse that raises nothing returns. *)
Theorem create_using_checked_and_reused lines comments delimiter nodetype timestamptype keys
    (h : gmap loc (object G)) (r : loc) :
  (forall x, h !! r = Some (OOther x) ->
     parse_interactions lines comments delimiter (Some r) nodetype timestamptype keys h
       = (h, inl (TypeError "create_using input is not a DyNet graph type"))
     /\ parse_snapshots lines comments delimiter (Some r) nodetype timestamptype keys h
       = (h, inl (TypeError "create_using input is not a DyNet graph type")))
  /\ (forall g0, h !! r = Some (OGraph g0) ->
       (forall g res,
          for_each (interactions_line comments delimiter nodetype timestamptype keys)
            lines (clear g0) = (g, res) ->
          parse_interactions lines comments delimiter (Some r) nodetype timestamptype keys h
            = (<[r := OGraph g]> h, reported r res))
       /\ (forall g res,
             for_each (snapshots_line comments delimiter nodetype timestamptype keys)
               lines (clear g0) = (g, res) ->
             parse_snapshots lines comments delimiter (Some r) nodetype timestamptype keys h
               = (<[r := OGraph g]> h, reported r res))).
Proof.
  split.
  - intros x Hx. unfold parse_interactions, parse_snapshots, with_graph.
    rewrite Hx. split; reflexivity.
  - intros g0 Hg. unfold parse_interactions, parse_snapshots, with_graph.
    rewrite Hg. split; intros g res Hrun; rewrite Hrun; reflexivity.
Qed.

Lemma read_ids_none_raises line rest delimiter :
  exists e, read_ids (line :: rest) delimiter None = inl e
    /\ (forall s x, split delimiter (rstrip line) = inr s -> last s = Some x ->
          e = TypeError "'NoneType' object is not callable").
Proof.
  unfold read_ids, read_ids_candidates. rewrite for_each_cons.
  unfold read_ids_line, index_last, call. run_monad.
  destruct (split delimiter (rstrip line)) as [e|s].
  - exists e. split; [reflexivity|]. intros ? ? [=].
  - destruct (last s) as [x|] eqn:Hl.
    + eexists. split; [reflexivity|]. reflexivity.
    + eexists. split; [reflexivity|]. intros ? ? [= <-]. congruence.
Qed.

(** C9. With [keys=True] and no [timestamptype], reading a file that has
    at least one line raises in [read_ids], before either reader touches its
    graph: the store is as it was.  When the first line has a last token, the
    exception is the [TypeError] of calling [None]. *)
Theorem keys_without_timestamptype_raises line rest comments delimiter create_using nodetype
    (h : gmap loc (object G)) :
  exists e,
    read_interactions (line :: rest) comments delimiter create_using nodetype None true h
      = (h, inl e)
    /\ read_snapshots (line :: rest) comments delimiter create_using nodetype None true h
      = (h, inl e)
    /\ (forall s x, split delimiter (rstrip line) = inr s -> last s = Some x ->
          e = TypeError "'NoneType' object is not callable").
Proof.
  destruct (read_ids_none_raises line rest delimiter) as (e & He & Hcall).
  exists e. unfold read_interactions, read_snapshots, bind, lift.
  rewrite He. auto.
Qed.

(** The registrations of a reindexed expansion: every step is looked up in
    [keys]; the first step that is not a key raises. *)
Lemma for_each_register_present (k : gmap value value) u v (ts : list value) (g : G) :
  Forall (fun t => is_Some (k !! t)) ts ->
  for_each (register (Some k) u v) ts g
  = (foldl (fun acc t => add_interaction u v (default VNone (k !! t)) VNone acc) g ts,
     inr tt).
Proof.
  revert g. induction ts as [|t ts IH]; intros g Hall; [reflexivity|].
  inversion Hall as [|? ? [i Hi] Hrest]; subst.
  rewrite for_each_cons. unfold register at 1, bind, lift, getitem, modify.
  rewrite Hi. simpl. rewrite IH by exact Hrest. rewrite Hi. reflexivity.
Qed.

Lemma for_each_register_missing (k : gmap value value) u v (ts : list value) (g : G) :
  Exists (fun t => k !! t = None) ts ->
  exists t, t ∈ ts /\ k !! t = None
    /\ (for_each (register (Some k) u v) ts g).2 = inl (KeyError t).
Proof.
  revert g. induction ts as [|t ts IH]; intros g Hex; [by inversion Hex|].
  rewrite for_each_cons. unfold register at 1, bind, lift, getitem, modify, raise.
  destruct (k !! t) as [i|] eqn:Hi.
  - simpl. inversion Hex as [? ? Hnone|? ? Hrest]; subst; [congruence|].
    destruct (IH (add_interaction u v i VNone g) Hrest) as (t' & Hin & Hk & Hr).
    exists t'. split; [by right|]. auto.
  - exists t. split; [by left|]. auto.
Qed.

(** C10. With an index [keys], a ['-'] record at the converted timestamp
    [b] for a pair whose last stored start is the integer [a < b] (with
    [keys], what a ['+'] record stores is the ordinal [keys[t0]]) looks up
    every integer of [[a, b)] in [keys].  When all of them are keys, the
    record is handled without an exception and registers [keys[t]] for each
    integer [t] of the range, in increasing order; as soon as one of them is
    not a key, a [KeyError] on an integer of the range that is not a key is
    raised. *)
Theorem reindexed_minus_lookup (k : gmap value value) (g : G) u v op ts a b :
  op ≠ "+" -> edge_t g u v = inr ts -> last ts = Some (VInt a) -> a < b ->
  ((forall t, a <= t < b -> is_Some (k !! VInt t)) ->
     interaction_record (Some k) u v op (VInt b) g
     = (foldl (fun acc t => add_interaction u v (default VNone (k !! VInt t)) VNone acc)
          g (seqZ a (b - a)),
        inr tt))
  /\ (forall t, a <= t < b -> k !! VInt t = None ->
        exists t', a <= t' < b /\ k !! VInt t' = None
          /\ (interaction_record (Some k) u v op (VInt b) g).2 = inl (KeyError (VInt t'))).
Proof.
  intros Hop Hts Hlast Hab.
  assert (Hrec : interaction_record (Some k) u v op (VInt b) g
                 = for_each (register (Some k) u v) (VInt <$> seqZ a (b - a)) g).
  { unfold interaction_record. rewrite decide_False by done.
    unfold bind, get, lift. rewrite Hts. simpl. rewrite Hlast. simpl.
    assert ((a <? b) = true) as -> by lia. reflexivity. }
  rewrite Hrec. split.
  - intros Hall. rewrite for_each_register_present.
    + f_equal. clear Hts Hrec. generalize (seqZ a (b - a)) as l. intros l. revert g.
      induction l as [|t l IH]; intros g; [reflexivity|]. simpl. apply IH.
    + apply Forall_fmap, Forall_forall. intros t Ht.
      apply elem_of_seqZ in Ht. apply Hall. lia.
  - intros t Ht Hnone.
    destruct (for_each_register_missing k u v (VInt <$> seqZ a (b - a)) g)
      as (t' & Hin & Hk & Hr).
    { apply Exists_exists. exists (VInt t). split; [|exact Hnone].
      apply list_elem_of_fmap. exists t. split; [reflexivity|].
      apply elem_of_seqZ. lia. }
    apply list_elem_of_fmap in Hin as (z & -> & Hz).
    apply elem_of_seqZ in Hz. exists z. split; [lia|]. auto.
Qed.

End ReaderProperties.

(** ** Where the code departs from its description *)

Section Messages.
Context {G : Type} `{!DynGraphOps G}.

(** C6. A timestamp that [int] rejects, with [str] as the node type: both
    parsers stop at that line with a [TypeError], whatever lines follow, and
    the message names the offending token and the node type, not the
    timestamp type. *)
Theorem timestamp_failure_names_nodetype rest (h : gmap loc (object G)) :
  parse_interactions ("1 2 + x" :: rest) "#" None None
      (Some py_str_type) (Some py_int) None h
    = (<[fresh (dom h) := OGraph DynGraph]> h,
       inl (TypeError "Failed to convert timestamp x to type <type 'str'>."))
  /\ parse_snapshots ("1 2 x" :: rest) "#" None None
       (Some py_str_type) (Some py_int) None h
    = (<[fresh (dom h) := OGraph DynGraph]> h,
       inl (TypeError "Failed to convert timestamp x to type <type 'str'>.")).
Proof.
  unfold parse_interactions, parse_snapshots, with_graph.
  rewrite !for_each_cons. split; reflexivity.
Qed.

(** A node that [int] rejects: the message names the tokens and the node
    type; the lines that follow are not read. *)
Lemma node_failure_names_nodetype rest (h : gmap loc (object G)) :
  parse_interactions ("a 2 + 1" :: rest) "#" None None
      (Some py_int) (Some py_int) None h
    = (<[fresh (dom h) := OGraph DynGraph]> h,
       inl (TypeError "Failed to convert nodes a,2 to type <type 'int'>.")).
Proof.
  unfold parse_interactions, with_graph. rewrite for_each_cons. reflexivity.
Qed.

End Messages.

(** C4. On the line [1 2 5 7], which has four tokens, [read_ids] collects
    the last token only: the test of line 272 is on the number of characters
    of the line, which is 8 here.  On the line [1 2], which has two tokens
    and four characters, it collects both. *)
Theorem read_ids_tests_line_length :
  read_ids_candidates ["1 2 5 7" +:+ nl] None (Some py_int)
    = (<[VInt 7 := VNone]> ∅, inr tt)
  /\ read_ids_candidates ["1 2" +:+ nl] None (Some py_int)
    = (<[VInt 1 := VNone]> (<[VInt 2 := VNone]> ∅), inr tt).
Proof. split; vm_compute; reflexivity. Qed.

(** The second candidate of a line is looked at exactly when the line has
    four characters. *)
Lemma read_ids_line_one_candidate delimiter timestamptype line s x k ids :
  String.length line ≠ 4%nat ->
  split delimiter (rstrip line) = inr s -> last s = Some x ->
  call timestamptype (VStr x) = inr k ->
  read_ids_line delimiter timestamptype line ids = (<[k := VNone]> ids, inr tt).
Proof.
  intros Hlen Hs Hx Hk. unfold read_ids_line, index_last. run_monad.
  rewrite Hs. simpl. rewrite Hx. simpl. rewrite Hk. simpl.
  destruct (Nat.eqb_spec (String.length line) 4); [done|reflexivity].
Qed.

(** C8. For the stored entry [[0, 3]] of the edge [(1, 2)],
    [generate_snapshots] yields one line, made of the two nodes and the
    entry itself, whatever [make_str] is; with the [make_str] above the line
    is [1 2 [0, 3]].  A single-point entry [[3, 3]] gives the line
    [1 2 3]. *)
Theorem generate_snapshots_one_line_per_entry (ms : pyval -> string) :
  interactions range_graph
    = [(VInt 1, VInt 2, {| attr_t := Some [[VInt 0; VInt 3]]; attr_other := [] |})]
  /\ generate_snapshots ms range_graph " "
    = ([join " " [ms (PAtom (VInt 1)); ms (PAtom (VInt 2)); ms (PList [VInt 0; VInt 3])]],
       None)
  /\ generate_snapshots make_str range_graph " " = (["1 2 [0, 3]"], None)
  /\ generate_snapshots make_str
       (add_interaction (VInt 1) (VInt 2) (VInt 3) (VInt 3) DynGraph : timeline_graph) " "
     = (["1 2 3"], None).
Proof. repeat split; vm_compute; reflexivity. Qed.

(** Whatever the graph, an edge yields at most one line per entry of its
    timeline. *)
Lemma snapshot_edge_at_most_one_line (ms : pyval -> string) delimiter u v d ts :
  attr_t d = Some ts ->
  (length (snapshot_edge ms delimiter (u, v, d)).1 <= length ts)%nat.
Proof.
  intros Ht. unfold snapshot_edge. rewrite Ht. clear Ht.
  generalize (fun t => match snapshot_entry u v d t with
                       | inl err => inl err
                       | inr e => inr (join delimiter (ms <$> e))
                       end) as body.
  intros body. induction ts as [|t ts IH]; simpl; [lia|].
  destruct (body t) as [err|line]; simpl; [lia|].
  destruct (yield_each body ts) as [rest r]. simpl in *. lia.
Qed.

(** ** Timelines under the readers *)

Lemma edge_t_starts (g : timeline_graph) u v : edge_t g u v = inr (starts g u v).
Proof. reflexivity. Qed.







Section TimelineReaders.
Variables (comments : string) (delimiter : option string).
Variables (nodetype timestamptype : option converter).
Variable keys : option (gmap value value).

Let body := interactions_line (G := timeline_graph)
              comments delimiter nodetype timestamptype keys.



End TimelineReaders.




(** ** Concrete runs *)

(** The lines [1 2 + 0] and [1 2 - 3], read with integer nodes and
    timestamps: the pair [(1, 2)] has entries at 0, 1 and 2, the first one
    registered by both records. *)
Example plus_0_minus_3 :
  (fun g => starts g (VInt 1) (VInt 2))
    <$> graph_at (parse_interactions (G := timeline_graph) ["1 2 + 0"; "1 2 - 3"]
                    "#" None None (Some py_int) (Some py_int) None ∅)
  = Some [VInt 0; VInt 0; VInt 1; VInt 2].
Proof. vm_compute. reflexivity. Qed.

(** With the default [timestamptype] the timestamps stay strings and the
    expansion of the ['-'] record raises. *)
Example plus_0_minus_3_strings :
  (parse_interactions (G := timeline_graph) ["1 2 + 0"; "1 2 - 3"]
     "#" None None None None None ∅).2
  = inl (TypeError "range() integer argument expected").
Proof. vm_compute. reflexivity. Qed.




(** A ['-'] record that does not come after the last start of its pair. *)
Example minus_not_after_start :
  graph_at (parse_interactions (G := timeline_graph) ["1 2 + 5"; "1 2 - 5"; "1 2 - 3"]
              "#" None None (Some py_int) (Some py_int) None ∅)
  = Some (add_interaction (VInt 1) (VInt 2) (VInt 5) VNone DynGraph).
Proof. vm_compute. reflexivity. Qed.

(** C3, counterexample. The line [1 2 5 7 9] has five fields, and
    [parse_snapshots] does not skip it: it registers an entry for its first
    four fields. *)
Lemma snapshot_five_fields_registered :
  fields "#" None "1 2 5 7 9" = inr (Some ["1"; "2"; "5"; "7"; "9"])
  /\ (fun g => timeline g (VStr "1") (VStr "2"))
       <$> graph_at (parse_snapshots (G := timeline_graph) ["1 2 5 7 9"]
                       "#" None None None None None ∅)
     = Some [(VStr "5", VStr "7")]
  /\ snapshots_line (G := timeline_graph) "#" None None None None "1 2 5 7 9" DynGraph
     ≠ (DynGraph, inr tt).
Proof.
  split; [reflexivity|]. split; [vm_compute; reflexivity|].
  intros H. apply (f_equal (fun r => timeline r.1 (VStr "1") (VStr "2"))) in H.
  vm_compute in H. discriminate.
Qed.

Lemma malformed_line_skipped_witness :
  interactions_line (G := timeline_graph) "#" None None None None "1 2 0 # + 3" DynGraph
    = (DynGraph, inr tt)
  /\ snapshots_line (G := timeline_graph) "#" None None None None "1 2" DynGraph
    = (DynGraph, inr tt).
Proof.
  split.
  - apply (proj1 (malformed_line_skipped "#" None None None None "1 2 0 # + 3"
                    (Some ["1"; "2"; "0"]) DynGraph eq_refl)).
    simpl. lia.
  - apply (proj2 (malformed_line_skipped "#" None None None None "1 2"
                    (Some ["1"; "2"]) DynGraph eq_refl)).
    simpl. lia.
Defined.

Lemma create_using_checked_and_reused_witness :
  parse_interactions ["1 2 + 0"] "#" None (Some 1%nat) None None None sample_store
    = (sample_store, inl (TypeError "create_using input is not a DyNet graph type"))
  /\ parse_snapshots ["1 2 0"] "#" None (Some 0%nat) None None None sample_store
    = (<[0%nat := OGraph (add_interaction (VStr "1") (VStr "2") (VStr "0") VNone DynGraph)]>
         sample_store, inr 0%nat).
Proof.
  destruct (create_using_checked_and_reused ["1 2 + 0"] "#" None None None None
              sample_store 1%nat) as [Hother _].
  destruct (create_using_checked_and_reused ["1 2 0"] "#" None None None None
              sample_store 0%nat) as [_ Hgraph].
  split.
  - apply (Hother (VInt 5)). reflexivity.
  - apply (proj2 (Hgraph _ eq_refl)
             (add_interaction (VStr "1") (VStr "2") (VStr "0") VNone DynGraph) (inr tt)).
    reflexivity.
Defined.

(** The index of the timestamps 5, 1 and 3. *)
Example clean_timeslot_5_1_3 :
  clean_timeslot [VInt 5; VInt 1; VInt 3]
  = <[VInt 1 := VInt 0]> (<[VInt 3 := VInt 1]> (<[VInt 5 := VInt 2]> ∅)).
Proof. vm_compute. reflexivity. Qed.

(** Reindexed, the ['+'] at 5 is stored as the ordinal 0, and the ['-'] at
    7 looks up 0, the first integer of [range(0, 7)], which is not a
    timestamp of the file. *)
Example reindexed_minus_key_error :
  (read_interactions (G := timeline_graph) ["1 2 + 5" +:+ nl; "1 2 - 7" +:+ nl]
     "#" None None (Some py_int) (Some py_int) true ∅).2
  = inl (KeyError (VInt 0)).
Proof. vm_compute. reflexivity. Qed.

Lemma reindexed_minus_lookup_witness :
  let k : gmap value value := <[VInt 0 := VInt 0]> (<[VInt 10 := VInt 1]> ∅) in
  let g : timeline_graph := add_interaction (VInt 1) (VInt 2) (VInt 0) VNone DynGraph in
  interaction_record (Some (<[VInt 1 := VInt 1]> k)) (VInt 1) (VInt 2) "-" (VInt 2) g
    = (foldl (fun acc t =>
                add_interaction (VInt 1) (VInt 2)
                  (default VNone (<[VInt 1 := VInt 1]> k !! VInt t)) VNone acc)
         g (seqZ 0 (2 - 0)),
       inr tt)
  /\ exists t', 0 <= t' < 10 /\ k !! VInt t' = None
       /\ (interaction_record (Some k) (VInt 1) (VInt 2) "-" (VInt 10) g).2
          = inl (KeyError (VInt t')).
Proof.
  intros k g. split.
  - apply (proj1 (reindexed_minus_lookup (<[VInt 1 := VInt 1]> k) g (VInt 1) (VInt 2) "-"
                    [VInt 0] 0 2 ltac:(discriminate) eq_refl eq_refl ltac:(lia))).
    intros t Ht. assert (t = 0 \/ t = 1) as [-> | ->] by lia; vm_compute; eauto.
  - apply (proj2 (reindexed_minus_lookup k g (VInt 1) (VInt 2) "-"
                    [VInt 0] 0 10 ltac:(discriminate) eq_refl eq_refl ltac:(lia)) 1).
    + lia.
    + vm_compute. reflexivity.
Defined.

(** With [keys=True] and no [timestamptype], an empty file is read without
    an exception: there is no candidate to convert. *)
Example keys_without_timestamptype_empty_file :
  (read_interactions (G := timeline_graph) [] "#" None None None None true ∅).2
  = inr (fresh (dom (∅ : gmap loc (object timeline_graph)))).
Proof. vm_compute. reflexivity. Qed.

(** ** Writing a line and reading it back *)

Lemma str_app_cons a s t : String a s +:+ t = String a (s +:+ t).
Proof. reflexivity. Qed.

Lemma str_app_nil_r s : s +:+ "" = s.
Proof. induction s as [|a s IH]; [reflexivity|]. by rewrite str_app_cons, IH. Qed.


Lemma rev_app_rev_app s acc acc' :
  String.rev_app (String.rev_app s acc) acc' = String.rev_app acc (s +:+ acc').
Proof.
  revert acc. induction s as [|a s IH]; intros acc; [reflexivity|].
  simpl. rewrite IH. reflexivity.
Qed.

Lemma rev_rev s : String.rev (String.rev s) = s.
Proof. unfold String.rev. rewrite rev_app_rev_app. simpl. apply str_app_nil_r. Qed.















Example sample_graph_written :
  write_interactions make_str sample_graph " "
  = ["3 4 + 5" +:+ nl; "1 2 + 0" +:+ nl; "1 2 + 1" +:+ nl; "1 2 + 2" +:+ nl].
Proof. vm_compute. reflexivity. Qed.


(** ** Further properties of the readers *)

Section MoreReaderProperties.
Context {G : Type} `{!DynGraphOps G}.


Lemma fields_empty_marker delimiter line : fields "" delimiter line = inr None.
Proof.
  unfold fields, find.
  assert (find_from 0 line "" = 0) as ->; [by destruct line|]. reflexivity.
Qed.

(** X2. With the empty string as comment marker, every line is cut at its
    start: both parsers skip all the lines, raise nothing and leave the graph
    as it was. *)
Theorem empty_comment_marker_skips_all lines delimiter nodetype timestamptype keys (g : G) :
  for_each (interactions_line "" delimiter nodetype timestamptype keys) lines g = (g, inr tt)
  /\ for_each (snapshots_line "" delimiter nodetype timestamptype keys) lines g = (g, inr tt).
Proof.
  split; induction lines as [|line lines IH]; try reflexivity; rewrite for_each_cons.
  - unfold interactions_line at 1. run_monad. rewrite fields_empty_marker. exact IH.
  - unfold snapshots_line at 1. run_monad. rewrite fields_empty_marker. exact IH.
Qed.




Lemma skipped_by_interactions comments delimiter nodetype timestamptype keys line (g : G) :
  kept_by_interactions comments delimiter line = false ->
  interactions_line comments delimiter nodetype timestamptype keys line g = (g, inr tt).
Proof.
  unfold kept_by_interactions, interactions_line. run_monad.
  destruct (fields comments delimiter line) as [e|o]; [done|].
  intros Hn%bool_decide_eq_false. destruct o as [s|]; [|reflexivity].
  destruct s as [|u [|v [|op [|s [|x rest]]]]]; try reflexivity. by destruct Hn.
Qed.

Lemma skipped_by_snapshots comments delimiter nodetype timestamptype keys line (g : G) :
  kept_by_snapshots comments delimiter line = false ->
  snapshots_line comments delimiter nodetype timestamptype keys line g = (g, inr tt).
Proof.
  unfold kept_by_snapshots, snapshots_line. run_monad.
  destruct (fields comments delimiter line) as [e|o]; [done|].
  intros Hn%bool_decide_eq_false. destruct o as [s|]; [|reflexivity].
  destruct s as [|u [|v [|t rest]]]; try reflexivity. simpl in Hn. lia.
Qed.

Lemma for_each_filter {S} (body : string -> M S unit) (keep : string -> bool) lines (s : S) :
  (forall line s', keep line = false -> body line s' = (s', inr tt)) ->
  for_each body (filter (fun line => keep line = true) lines) s = for_each body lines s.
Proof.
  intros Hskip. revert s. induction lines as [|line lines IH]; intros s; [reflexivity|].
  destruct (keep line) eqn:Hk.
  - rewrite filter_cons_True by done. rewrite !for_each_cons.
    destruct (body line s) as [s' [e|[]]]; [reflexivity|apply IH].
  - rewrite filter_cons_False by (rewrite Hk; done).
    rewrite for_each_cons, (Hskip _ _ Hk). apply IH.
Qed.

(** X4. The lines a parser skips are invisible: [parse_interactions]
    returns the same on the input and on the input without its lines that do
    not have four fields, and [parse_snapshots] the same on the input and on
    the input without its lines of fewer than three fields. *)
Theorem skipped_lines_are_invisible lines comments delimiter create_using
    nodetype timestamptype keys (h : gmap loc (object G)) :
  parse_interactions
    (filter (fun line => kept_by_interactions comments delimiter line = true) lines)
    comments delimiter create_using nodetype timestamptype keys h
  = parse_interactions lines comments delimiter create_using nodetype timestamptype keys h
  /\ parse_snapshots
       (filter (fun line => kept_by_snapshots comments delimiter line = true) lines)
       comments delimiter create_using nodetype timestamptype keys h
     = parse_snapshots lines comments delimiter create_using nodetype timestamptype keys h.
Proof.
  unfold parse_interactions, parse_snapshots, with_graph. split.
  - destruct create_using as [r|].
    + destruct (h !! r) as [[g0|x]|]; try reflexivity.
      rewrite for_each_filter; [reflexivity|]. intros. by apply skipped_by_interactions.
    + rewrite for_each_filter; [reflexivity|]. intros. by apply skipped_by_interactions.
  - destruct create_using as [r|].
    + destruct (h !! r) as [[g0|x]|]; try reflexivity.
      rewrite for_each_filter; [reflexivity|]. intros. by apply skipped_by_snapshots.
    + rewrite for_each_filter; [reflexivity|]. intros. by apply skipped_by_snapshots.
Qed.

Lemma split_raises delimiter s e :
  split delimiter s = inl e -> delimiter = Some "" /\ e = ValueError "empty separator".
Proof.
  unfold split. destruct delimiter as [[|a sep]|]; [|done..].
  intros [= <-]. done.
Qed.

Lemma fields_raises comments delimiter line e :
  fields comments delimiter line = inl e ->
  delimiter = Some "" /\ e = ValueError "empty separator".
Proof.
  unfold fields. destruct (_ =? _)%nat; [done|].
  destruct (split delimiter _) as [e'|s] eqn:Hs; [|done].
  intros [= <-]. by apply split_raises in Hs.
Qed.

Lemma convert_nodes_raises nodetype u v e :
  convert_nodes nodetype u v = inl e -> exists msg, e = TypeError msg.
Proof.
  unfold convert_nodes, nodes_error. destruct nodetype as [f|]; [|done].
  destruct (conv f u); [intros [= <-]; eauto|].
  destruct (conv f v); [intros [= <-]; eauto|done].
Qed.

Lemma convert_timestamp_raises nodetype timestamptype s e :
  convert_timestamp nodetype timestamptype s = inl e -> exists msg, e = TypeError msg.
Proof.
  unfold convert_timestamp, timestamp_error. destruct timestamptype as [f|]; [|done].
  destruct (conv f s); [intros [= <-]; eauto|done].
Qed.

(** X5. A line of a snapshot list is read as a whole or not at all: when
    the loop body of [parse_snapshots] raises, the graph is as it was before
    the line, and the exception is the [ValueError] of an empty delimiter, a
    [TypeError] of a failed conversion, or the [KeyError] of a field that is
    not a key of [keys]. *)
Theorem snapshots_line_raises_unchanged comments delimiter nodetype timestamptype keys
    line (g g' : G) e :
  snapshots_line comments delimiter nodetype timestamptype keys line g = (g', inl e) ->
  g' = g
  /\ ((delimiter = Some "" /\ e = ValueError "empty separator")
      \/ (exists msg, e = TypeError msg)
      \/ (exists k key, keys = Some k /\ k !! key = None /\ e = KeyError key)).
Proof.
  unfold snapshots_line. run_monad.
  destruct (fields comments delimiter line) as [e0|o] eqn:Hf.
  { intros [= <- <-]. split; [done|]. left. by eapply fields_raises. }
  destruct o as [[|u [|v [|t rest]]]|]; try done.
  destruct (convert_nodes nodetype (VStr u) (VStr v)) as [e0|uv] eqn:Hn.
  { intros [= <- <-]. split; [done|]. right. left. by eapply convert_nodes_raises. }
  destruct (convert_timestamp nodetype timestamptype (VStr t)) as [e0|t'] eqn:Ht.
  { intros [= <- <-]. split; [done|]. right. left. by eapply convert_timestamp_raises. }
  unfold snapshot_record. run_monad. unfold getitem.
  destruct keys as [k|]; [|done].
  destruct (decide _).
  - destruct (k !! t') eqn:Hk; [done|]. intros [= <- <-]. split; [done|].
    right. right. eauto.
  - destruct (k !! t') eqn:Hk.
    + destruct rest as [|e1 rest]; [done|]. simpl.
      destruct (k !! VStr e1) eqn:Hk2; simpl; [done|]. intros [= <- <-]. split; [done|].
      right. right. eauto.
    + intros [= <- <-]. split; [done|]. right. right. eauto.
Qed.

Lemma register_each_none_runs u v ts (g : G) :
  for_each (register None u v) ts g
  = (foldl (fun acc t => add_interaction u v t VNone acc) g ts, inr tt).
Proof.
  revert g. induction ts as [|t ts IH]; intros g; [reflexivity|].
  rewrite for_each_cons. simpl. unfold modify. apply IH.
Qed.

(** X6. A line of an interaction list that raises leaves the graph as it
    was before the line, except for a record that is not a ['+'] read with
    [keys], whose expansion may stop at a step that is not a key after the
    steps before it were registered. *)
Theorem interactions_line_raises_unchanged comments delimiter nodetype timestamptype keys
    line (g g' : G) e :
  interactions_line comments delimiter nodetype timestamptype keys line g = (g', inl e) ->
  g' = g
  \/ (exists k u v op s key,
        keys = Some k
        /\ record_of comments delimiter nodetype timestamptype line = inr (Some (u, v, op, s))
        /\ op ≠ "+" /\ k !! key = None /\ e = KeyError key).
Proof.
  rewrite interactions_line_record.
  destruct (record_of comments delimiter nodetype timestamptype line)
    as [e0|[[[[u v] op] s]|]] eqn:Hrec; [intros [= <- <-]; by left|..|done].
  unfold interaction_record. destruct (decide (op = "+")) as [->|Hop].
  - unfold register. run_monad. unfold getitem. destruct keys as [k|]; [|done].
    destruct (k !! s); [done|]. intros [= <- <-]. by left.
  - run_monad. destruct (edge_t g u v) as [e0|timestamps]; [intros [= <- <-]; by left|].
    simpl. destruct (last timestamps) as [start|]; [|done].
    destruct (py_lt start s); [|done].
    destruct (py_range start s) as [e0|steps]; [intros [= <- <-]; by left|]. simpl.
    destruct keys as [k|].
    + intros Hrun. right.
      destruct (decide (Forall (fun t => is_Some (k !! t)) steps)) as [Hall|Hex].
      * rewrite (for_each_register_present k u v steps g Hall) in Hrun. done.
      * apply not_Forall_Exists in Hex; [|apply _].
        destruct (for_each_register_missing k u v steps g) as (key & _ & Hkey & Hr).
        { eapply Exists_impl; [exact Hex|]. simpl. intros t Ht.
          by destruct (k !! t); [exfalso; eauto|]. }
        rewrite Hrun in Hr. simpl in Hr. injection Hr as ->.
        exists k, u, v, op, s, key. done.
    + rewrite register_each_none_runs. done.
Qed.

(** X7. With no converter and no [keys], and a delimiter that is not the
    empty string, [parse_snapshots] raises on no input. *)
Theorem parse_snapshots_defaults_never_raise lines comments delimiter create_using
    (h : gmap loc (object G)) (r : loc) (g0 : G) :
  delimiter ≠ Some "" ->
  (create_using = None
   \/ (create_using = Some r /\ h !! r = Some (OGraph g0))) ->
  exists r', (parse_snapshots lines comments delimiter create_using None None None h).2
             = inr r'.
Proof.
  intros Hd Hcu.
  assert (Hrun : forall g, (for_each (snapshots_line comments delimiter None None None)
                              lines g).2 = inr tt).
  { induction lines as [|line lines IH]; intros g; [reflexivity|].
    rewrite for_each_cons. unfold snapshots_line at 1. run_monad.
    destruct (fields comments delimiter line) as [e0|o] eqn:Hf.
    { apply fields_raises in Hf as [? _]. done. }
    destruct o as [[|u [|v [|t rest]]]|]; apply IH. }
  unfold parse_snapshots, with_graph.
  destruct Hcu as [->|[-> Hr]].
  - specialize (Hrun DynGraph).
    destruct (for_each _ lines DynGraph) as [g [e|[]]]; [done|]. eauto.
  - rewrite Hr. specialize (Hrun (clear g0)).
    destruct (for_each _ lines (clear g0)) as [g [e|[]]]; [done|]. eauto.
Qed.

Lemma prefix_nil s : String.prefix "" s = true.
Proof. by destruct s. Qed.

Lemma prefix_slice c n t :
  String.prefix c (slice_to n t) = true -> String.prefix c t = true.
Proof.
  revert n t. induction c as [|a c IH]; intros n t; [intros _; apply prefix_nil|].
  destruct n as [|n], t as [|b t]; try done. simpl.
  destruct (ascii_dec a b); [apply IH|done].
Qed.

Lemma find_from_nil i c :
  find_from i "" c = if String.prefix c "" then Z.of_nat i else -1.
Proof. reflexivity. Qed.

Lemma find_from_cons i a s c :
  find_from i (String a s) c
  = if String.prefix c (String a s) then Z.of_nat i else find_from (S i) s c.
Proof. reflexivity. Qed.

Lemma find_from_ge i s c : find_from i s c = -1 \/ Z.of_nat i <= find_from i s c.
Proof.
  revert i. induction s as [|a s IH]; intros i.
  - rewrite find_from_nil. destruct (String.prefix c ""); [right; lia|by left].
  - rewrite find_from_cons. destruct (String.prefix c (String a s)); [right; lia|].
    destruct (IH (S i)) as [->|?]; [by left|right; lia].
Qed.

Lemma find_from_slice i j k s c :
  c ≠ "" -> find_from i s c = Z.of_nat (i + k) -> find_from j (slice_to k s) c = -1.
Proof.
  intros Hc. revert i j k. induction s as [|a s IH]; intros i j k.
  - destruct c; [done|]. destruct k; reflexivity.
  - rewrite find_from_cons. destruct (String.prefix c (String a s)) eqn:Hp.
    + intros Hk. assert (k = 0%nat) as -> by lia. by destruct c.
    + intros Hk. destruct k as [|k].
      { destruct (find_from_ge (S i) s c) as [Hm|Hge]; lia. }
      change (slice_to (S k) (String a s)) with (String a (slice_to k s)).
      rewrite find_from_cons.
      destruct (String.prefix c (String a (slice_to k s))) eqn:Hp'.
      { apply (prefix_slice c (S k) (String a s)) in Hp'. congruence. }
      apply (IH (S i)). rewrite Hk. lia.
Qed.

Lemma fields_cut comments delimiter line :
  0 <= find line comments ->
  fields comments delimiter (slice_to (Z.to_nat (find line comments)) line)
  = fields comments delimiter line.
Proof.
  intros Hp. unfold fields at 2.
  assert ((0 <=? find line comments) = true) as -> by lia.
  destruct (decide (comments = "")) as [->|Hc].
  - assert (find line "" = 0) as -> by (by destruct line).
    simpl. apply fields_empty_marker.
  - assert (Hcut : find (slice_to (Z.to_nat (find line comments)) line) comments = -1).
    { apply (find_from_slice 0 0 _ line comments Hc). unfold find in *. lia. }
    unfold fields. rewrite Hcut. reflexivity.
Qed.

(** X8. What follows the first comment marker of a line is ignored: both
    loop bodies do on a line what they do on the line cut at the first
    occurrence of the marker. *)
Theorem comment_is_cut comments delimiter nodetype timestamptype keys line (g : G) :
  0 <= find line comments ->
  interactions_line comments delimiter nodetype timestamptype keys
    (slice_to (Z.to_nat (find line comments)) line) g
  = interactions_line comments delimiter nodetype timestamptype keys line g
  /\ snapshots_line comments delimiter nodetype timestamptype keys
       (slice_to (Z.to_nat (find line comments)) line) g
     = snapshots_line comments delimiter nodetype timestamptype keys line g.
Proof.
  intros Hp. unfold interactions_line, snapshots_line.
  rewrite (fields_cut _ _ _ Hp). done.
Qed.

Lemma read_ids_line_last delimiter timestamptype line ids :
  read_ids_line delimiter timestamptype line ids
  = match last_candidate delimiter timestamptype line with
    | inl e => (ids, inl e)
    | inr k =>
        if (String.length line =? 4)%nat
        then read_ids_line delimiter timestamptype line ids
        else (<[k := VNone]> ids, inr tt)
    end.
Proof.
  unfold last_candidate.
  destruct (String.length line =? 4)%nat eqn:Hlen;
    unfold read_ids_line; run_monad; rewrite ?Hlen;
    destruct (split delimiter (rstrip line)) as [e|s]; try reflexivity; simpl;
    destruct (index_last s) as [e|x]; try reflexivity; simpl;
    destruct (call timestamptype (VStr x)) as [e|k]; reflexivity.
Qed.

Lemma read_ids_from path delimiter timestamptype (ids0 : gmap value value) :
  Forall (fun line => String.length line ≠ 4%nat
                      /\ exists k, last_candidate delimiter timestamptype line = inr k)
         path ->
  exists ids,
    for_each (read_ids_line delimiter timestamptype) path ids0 = (ids, inr tt)
    /\ forall k, is_Some (ids !! k)
                 <-> is_Some (ids0 !! k)
                     \/ exists line, line ∈ path
                          /\ last_candidate delimiter timestamptype line = inr k.
Proof.
  intros Hall. revert ids0.
  induction Hall as [|line path [Hlen [k Hk]] _ IH]; intros ids0.
  - exists ids0. split; [reflexivity|]. intros k. split; [auto|].
    intros [?|(line & Hin & _)]; [done|]. by apply elem_of_nil in Hin.
  - destruct (IH (<[k := VNone]> ids0)) as (ids & Hrun & Hdom).
    exists ids. rewrite for_each_cons, read_ids_line_last, Hk.
    apply Nat.eqb_neq in Hlen. rewrite Hlen. split; [exact Hrun|].
    intros k'. rewrite Hdom, lookup_insert_is_Some. split.
    + intros [[<-|[_ ?]]|(l & Hin & Hl)]; [right|by left|right].
      * exists line. split; [by left|done].
      * exists l. split; [by right|done].
    + intros [?|(l & Hin & Hl)].
      * destruct (decide (k = k')); [left; by left|left; right; done].
      * apply elem_of_cons in Hin as [->|Hin].
        -- left. left. congruence.
        -- right. eauto.
Qed.

(** X9. On a file in which no line has exactly four characters and every
    line has a last token that [timestamptype] converts, the loop of
    [read_ids] raises nothing and the keys of the dictionary it builds are
    exactly the converted last tokens of the lines. *)
Theorem read_ids_collects_last_tokens path delimiter timestamptype :
  Forall (fun line => String.length line ≠ 4%nat
                      /\ exists k, last_candidate delimiter timestamptype line = inr k)
         path ->
  exists ids,
    read_ids_candidates path delimiter timestamptype = (ids, inr tt)
    /\ forall k, is_Some (ids !! k)
                 <-> exists line, line ∈ path
                       /\ last_candidate delimiter timestamptype line = inr k.
Proof.
  intros Hall. destruct (read_ids_from path delimiter timestamptype ∅ Hall)
    as (ids & Hrun & Hdom).
  exists ids. split; [exact Hrun|]. intros k. rewrite Hdom, lookup_empty.
  split; [intros [[? [=]]|?]; done|by right].
Qed.

(** X10. With [keys=True] the file is scanned before the graph is touched,
    and what goes wrong in the scan is not turned into a [TypeError]: when
    the lines before a line are scanned without an exception and the last
    token of the line cannot be taken or converted, [read_interactions] and
    [read_snapshots] raise that exception and leave the store as it was. *)
Theorem scan_failure_surfaces pre line post comments delimiter create_using
    nodetype timestamptype (h : gmap loc (object G)) ids e :
  for_each (read_ids_line delimiter timestamptype) pre ∅ = (ids, inr tt) ->
  last_candidate delimiter timestamptype line = inl e ->
  read_interactions (pre ++ line :: post) comments delimiter create_using
    nodetype timestamptype true h = (h, inl e)
  /\ read_snapshots (pre ++ line :: post) comments delimiter create_using
       nodetype timestamptype true h = (h, inl e).
Proof.
  intros Hpre Hline.
  assert (Hids : read_ids (pre ++ line :: post) delimiter timestamptype = inl e).
  { unfold read_ids, read_ids_candidates.
    rewrite for_each_app, Hpre, for_each_cons, read_ids_line_last, Hline. reflexivity. }
  unfold read_interactions, read_snapshots. run_monad. rewrite Hids. done.
Qed.

End MoreReaderProperties.

(** ** Further properties of the writers *)

Lemma no_space_app a b : no_space (a +:+ b) = no_space a && no_space b.
Proof.
  induction a as [|c a IH]; [reflexivity|].
  rewrite str_app_cons. simpl. rewrite IH. by destruct (is_space c).
Qed.

Lemma lstrip_no_space s : no_space s = true -> lstrip s = s.
Proof. destruct s as [|c s]; [done|]. simpl. by destruct (is_space c). Qed.

Lemma rstrip_no_space s : no_space s = true -> rstrip s = s.
Proof.
  induction s as [|c s IH]; [done|]. simpl.
  destruct (is_space c); [done|]. simpl. intros Hs. rewrite IH by done.
  by destruct s.
Qed.

Lemma rstrip_app_nl s : rstrip (s +:+ nl) = rstrip s.
Proof.
  induction s as [|c s IH]; [reflexivity|].
  rewrite str_app_cons. simpl. by rewrite IH.
Qed.

Lemma strip_written s : no_space s = true -> strip (s +:+ nl) = s.
Proof.
  intros Hs. unfold strip. destruct s as [|c s]; [reflexivity|].
  assert (lstrip (String c s +:+ nl) = String c s +:+ nl) as ->.
  { rewrite str_app_cons. simpl in *. by destruct (is_space c). }
  rewrite rstrip_app_nl. by apply rstrip_no_space.
Qed.

Lemma no_space_join sep toks :
  no_space sep = true -> Forall (fun t => no_space t = true) toks ->
  no_space (join sep toks) = true.
Proof.
  intros Hsep. induction 1 as [|tok toks Htok _ IH]; [reflexivity|].
  destruct toks as [|tok' toks]; [exact Htok|].
  change (join sep (tok :: tok' :: toks)) with (tok +:+ sep +:+ join sep (tok' :: toks)).
  rewrite !no_space_app, Htok, Hsep. exact IH.
Qed.

Section OneCharacterDelimiter.
Variable c : ascii.

Let sep := String c EmptyString.

Lemma split_go_field tok cur s :
  has_char c tok = false ->
  split_sep_go sep 0 cur (tok +:+ s) = split_sep_go sep 0 (String.rev_app tok cur) s.
Proof.
  revert cur. induction tok as [|a tok IH]; intros cur Hc; [reflexivity|].
  simpl in Hc. apply orb_false_iff in Hc as [Ha Hc]. apply bool_decide_eq_false in Ha.
  rewrite str_app_cons. simpl. destruct (ascii_dec c a); [congruence|].
  by apply IH.
Qed.

Lemma split_go_sep cur s :
  split_sep_go sep 0 cur (String c s) = String.rev cur :: split_sep_go sep 0 "" s.
Proof.
  simpl. destruct (ascii_dec c c); [|done]. by destruct s.
Qed.

Lemma split_join toks :
  toks ≠ [] -> Forall (fun t => has_char c t = false) toks ->
  split_sep_go sep 0 "" (join sep toks) = toks.
Proof.
  intros Hne Hall. induction Hall as [|tok toks Htok _ IH]; [done|].
  destruct toks as [|tok' toks].
  - simpl. rewrite <- (str_app_nil_r tok) at 1. rewrite split_go_field by done.
    simpl. f_equal. apply rev_rev.
  - change (join sep (tok :: tok' :: toks))
      with (tok +:+ String c (join sep (tok' :: toks))).
    rewrite split_go_field, split_go_sep by done. f_equal; [apply rev_rev|].
    by apply IH.
Qed.

Lemma fields_written_with comments toks :
  is_space c = false -> toks ≠ [] ->
  Forall (fun t => no_space t = true /\ has_char c t = false) toks ->
  find (join sep toks +:+ nl) comments = -1 ->
  fields comments (Some sep) (join sep toks +:+ nl) = inr (Some toks).
Proof.
  intros Hc Hne Hall Hfind. unfold fields. rewrite Hfind. simpl.
  assert (Hlen : (String.length (join sep toks +:+ nl) =? 0)%nat = false).
  { by destruct (join sep toks). }
  rewrite Hlen, strip_written.
  - unfold split, sep. fold sep. rewrite split_join; [done..|].
    eapply Forall_impl; [exact Hall|]. by intros t [_ ?].
  - apply no_space_join; [simpl; by rewrite Hc|].
    eapply Forall_impl; [exact Hall|]. by intros t [? _].
Qed.

(** X11. Written with a one-character delimiter that is not white space
    and read with the same delimiter, the lines of [write_interactions] are
    handled by the loop of [parse_interactions] as the records of the stream
    they were written from, when the fields hold neither white space nor the
    delimiter and the converters give back what was written. *)
Theorem written_with_delimiter_read_back {G} `{!DynGraphOps G} (ms : pyval -> string)
    comments nodetype timestamptype (g g0 : G) :
  is_space c = false ->
  Forall (matching_with ms comments c nodetype timestamptype) (stream_interactions g) ->
  for_each (interactions_line comments (Some sep) nodetype timestamptype None)
    (write_interactions ms g sep) g0
  = replay (stream_interactions g) g0.
Proof.
  intros Hc Hall.
  assert (Hlines : write_interactions ms g sep
                   = written_with ms sep <$> stream_interactions g).
  { unfold write_interactions, generate_interactions.
    rewrite <- list_fmap_compose. reflexivity. }
  rewrite Hlines. clear Hlines. unfold replay. revert g0.
  induction Hall as [|e recs He _ IH]; intros g0; [reflexivity|].
  rewrite fmap_cons, !for_each_cons, interactions_line_record.
  destruct e as [|u [|v [|[| |op] [|t [|x rest]]]]]; try done.
  destruct He as (Htok & Hop & Hnodes & Htime & Hfind).
  assert (Hrec : record_of comments (Some sep) nodetype timestamptype
                   (written_with ms sep [u; v; VStr op; t])
                 = inr (Some (u, v, op, t))).
  { unfold record_of, written_with.
    rewrite fields_written_with;
      [|exact Hc|done|by apply Forall_fmap, Forall_fmap|exact Hfind].
    simpl. rewrite Hnodes, Htime, Hop. reflexivity. }
  rewrite Hrec.
  destruct (interaction_record None u v op t g0) as [g1 [err|[]]]; [reflexivity|].
  apply IH.
Qed.

End OneCharacterDelimiter.

Section MoreWriterProperties.
Context {G : Type} `{!DynGraphOps G}.
Variable ms : pyval -> string.

Lemma snapshot_entry_point u v d t :
  point_entry t -> snapshot_entry u v d t = inr (point_fields u v d t).
Proof.
  intros (a & b & -> & Hle). unfold snapshot_entry, point_fields. simpl.
  rewrite seqZ_nil by lia. reflexivity.
Qed.

Lemma yield_each_point delimiter u v d ts :
  Forall point_entry ts ->
  yield_each (fun t => match snapshot_entry u v d t with
                       | inl err => inl err
                       | inr e => inr (join delimiter (ms <$> e))
                       end) ts
  = ((fun t => join delimiter (ms <$> point_fields u v d t)) <$> ts, None).
Proof.
  induction 1 as [|t ts Ht _ IH]; [reflexivity|].
  simpl. rewrite (snapshot_entry_point _ _ _ _ Ht), IH. reflexivity.
Qed.

(** X12. When every stored edge has a timeline and every entry of it has
    integer ends with the stop not after the start, [generate_snapshots]
    raises nothing and yields, edge by edge and entry by entry, the line
    made of the two nodes, the start of the entry and the other attributes
    of the edge. *)
Theorem generate_snapshots_point_entries (g : G) delimiter :
  Forall (fun x => exists ts, attr_t x.2 = Some ts /\ Forall point_entry ts)
         (interactions g) ->
  generate_snapshots ms g delimiter
  = (x ← interactions g;
     (fun t => join delimiter (ms <$> point_fields x.1.1 x.1.2 x.2 t))
       <$> default [] (attr_t x.2),
     None).
Proof.
  unfold generate_snapshots. generalize (interactions g) as xs.
  induction 1 as [|[[u v] d] xs (ts & Hts & Hall) _ IH]; [reflexivity|].
  simpl in Hts. rewrite bind_cons. simpl. rewrite Hts. simpl.
  rewrite (yield_each_point _ _ _ _ _ Hall), IH. reflexivity.
Qed.

End MoreWriterProperties.

(** ** The further properties on concrete inputs *)



Lemma snapshots_line_raises_unchanged_witness :
  (DynGraph : timeline_graph) = DynGraph
  /\ ((@None string = Some "" /\ KeyError (VStr "9") = ValueError "empty separator")
      \/ (exists msg, KeyError (VStr "9") = TypeError msg)
      \/ (exists k key, Some (<[VInt 5 := VInt 0]> (∅ : gmap value value)) = Some k
            /\ k !! key = None /\ KeyError (VStr "9") = KeyError key)).
Proof.
  apply (snapshots_line_raises_unchanged "#" None (Some py_int) (Some py_int)
           (Some (<[VInt 5 := VInt 0]> ∅)) "1 2 5 9" (DynGraph : timeline_graph)).
  vm_compute. reflexivity.
Defined.

Lemma interactions_line_raises_unchanged_witness :
  (DynGraph : timeline_graph) = DynGraph
  \/ (exists k u v op s key,
        @None (gmap value value) = Some k
        /\ record_of "#" None (Some py_int) (Some py_int) "a 2 + 1"
           = inr (Some (u, v, op, s))
        /\ op ≠ "+" /\ k !! key = None
        /\ TypeError "Failed to convert nodes a,2 to type <type 'int'>." = KeyError key).
Proof.
  apply (interactions_line_raises_unchanged "#" None (Some py_int) (Some py_int) None
           "a 2 + 1" (DynGraph : timeline_graph)).
  vm_compute. reflexivity.
Defined.

(** The exception of the statement above: read with [keys], a ['-'] record
    registers the steps that are keys before it raises on the first one that
    is not. *)
Example reindexed_minus_registers_before_raising :
  let k : gmap value value := <[VInt 0 := VInt 0]> (<[VInt 1 := VInt 1]> ∅) in
  let g : timeline_graph := add_interaction (VInt 1) (VInt 2) (VInt 0) VNone DynGraph in
  let r := interactions_line "#" None (Some py_int) (Some py_int) (Some k) "1 2 - 5" g in
  starts r.1 (VInt 1) (VInt 2) = [VInt 0; VInt 0; VInt 1]
  /\ r.2 = inl (KeyError (VInt 2)).
Proof. split; vm_compute; reflexivity. Qed.

Lemma parse_snapshots_defaults_never_raise_witness :
  exists r',
    (parse_snapshots ["1 2 3"; "a b"; ""; "x y z w v"; "# 1 2 3"] "#" (Some ",") None
       None None None (∅ : gmap loc (object timeline_graph))).2 = inr r'.
Proof.
  apply (parse_snapshots_defaults_never_raise
           ["1 2 3"; "a b"; ""; "x y z w v"; "# 1 2 3"] "#" (Some ",") None
           (∅ : gmap loc (object timeline_graph)) 0%nat DynGraph).
  - discriminate.
  - left. reflexivity.
Defined.

Lemma comment_is_cut_witness :
  let line := "1 2 + 3 # closed at 7" in
  let g : timeline_graph := DynGraph in
  interactions_line "#" None None None None
    (slice_to (Z.to_nat (find line "#")) line) g
  = interactions_line "#" None None None None line g
  /\ snapshots_line "#" None None None None
       (slice_to (Z.to_nat (find line "#")) line) g
     = snapshots_line "#" None None None None line g.
Proof.
  intros line g.
  apply (comment_is_cut "#" None None None None line g).
  vm_compute. discriminate.
Defined.

Lemma read_ids_collects_last_tokens_witness :
  let path := ["1 2 + 5" +:+ nl; "1 2 - 7" +:+ nl; "3 4 + 5" +:+ nl] in
  exists ids,
    read_ids_candidates path None (Some py_int) = (ids, inr tt)
    /\ forall k, is_Some (ids !! k)
                 <-> exists line, line ∈ path
                       /\ last_candidate None (Some py_int) line = inr k.
Proof.
  intros path.
  apply (read_ids_collects_last_tokens path None (Some py_int)).
  repeat (apply Forall_cons; split;
          [split; [vm_compute; discriminate|eexists; vm_compute; reflexivity]|]).
  constructor.
Defined.

Lemma scan_failure_surfaces_witness :
  let e := ValueError "invalid literal for int() with base 10" in
  read_interactions (["1 2 + 5" +:+ nl] ++ ("1 2 - x" +:+ nl) :: ["1 2 - 9" +:+ nl])
    "#" None (Some 0%nat) (Some py_int) (Some py_int) true sample_store
    = (sample_store, inl e)
  /\ read_snapshots (["1 2 + 5" +:+ nl] ++ ("1 2 - x" +:+ nl) :: ["1 2 - 9" +:+ nl])
       "#" None (Some 0%nat) (Some py_int) (Some py_int) true sample_store
     = (sample_store, inl e).
Proof.
  intros e.
  apply (scan_failure_surfaces ["1 2 + 5" +:+ nl] ("1 2 - x" +:+ nl) ["1 2 - 9" +:+ nl]
           "#" None (Some 0%nat) (Some py_int) (Some py_int) sample_store
           (<[VInt 5 := VNone]> ∅) e).
  - vm_compute. reflexivity.
  - vm_compute. reflexivity.
Defined.

Example sample_graph_written_with_commas :
  write_interactions make_str sample_graph ","
  = ["3,4,+,5" +:+ nl; "1,2,+,0" +:+ nl; "1,2,+,1" +:+ nl; "1,2,+,2" +:+ nl].
Proof. vm_compute. reflexivity. Qed.

Lemma written_with_delimiter_read_back_witness :
  for_each (interactions_line "#" (Some ",") (Some py_int) (Some py_int) None)
    (write_interactions make_str sample_graph ",") (DynGraph : timeline_graph)
  = replay (stream_interactions sample_graph) DynGraph.
Proof.
  apply (written_with_delimiter_read_back ","%char make_str "#"
           (Some py_int) (Some py_int) sample_graph (DynGraph : timeline_graph)).
  - reflexivity.
  - repeat (apply Forall_cons; split;
            [repeat split; try (vm_compute; reflexivity); repeat constructor|]).
    constructor.
Defined.

(** A graph whose edge [(1, 2)] holds the entries [[3, 3]] and [[5, 4]]. *)
Example point_graph_lines :
  generate_snapshots make_str
    (add_interaction (VInt 1) (VInt 2) (VInt 5) (VInt 4)
       (add_interaction (VInt 1) (VInt 2) (VInt 3) (VInt 3) DynGraph) : timeline_graph) " "
  = (["1 2 3"; "1 2 5"], None).
Proof. vm_compute. reflexivity. Qed.

Lemma generate_snapshots_point_entries_witness :
  let g : timeline_graph :=
    add_interaction (VInt 1) (VInt 2) (VInt 5) (VInt 4)
      (add_interaction (VInt 1) (VInt 2) (VInt 3) (VInt 3) DynGraph) in
  generate_snapshots make_str g " "
  = (x ← interactions g;
     (fun t => join " " (make_str <$> point_fields x.1.1 x.1.2 x.2 t))
       <$> default [] (attr_t x.2),
     None).
Proof.
  intros g.
  apply (generate_snapshots_point_entries make_str g " ").
  apply Forall_cons. split; [|constructor].
  eexists. split; [reflexivity|].
  repeat (apply Forall_cons; split; [eexists _, _; split; [reflexivity|lia]|]).
  constructor.
Defined.
